(** * Account preferences form: custom-theme transform, validation, visibility

    Shallow embedding of the logic of
    [static/app/data/forms/accountPreferences.tsx] (module
    [AccountPreferences]) and of the second copy of that form found in
    [unnamed/part_000] (module [Part000]): [transformCustomTheme], and the
    [validate] and [visible] callbacks of the [customThemeColor] field.

    JavaScript strings are sequences of UTF-16 code units, objects used as
    records are finite maps from property names to values, and a callback
    that can throw returns a [completion]. *)

From Stdlib Require Import String Ascii NArith.
From stdpp Require Import gmap list fin_maps.

Local Open Scope N_scope.

(** ** JavaScript strings *)

(** A string is its list of UTF-16 code units. *)
Abbreviation jsstring := (list N).

(** A source literal made of ASCII characters. *)
Fixpoint lit (s : string) : jsstring :=
  match s with
  | EmptyString => []
  | String a s' => N_of_ascii a :: lit s'
  end.

(** [WhiteSpace] and [LineTerminator] code points of ECMAScript, the ones
    [String.prototype.trim] strips. All of them are single code units. *)
Definition is_white_space (c : N) : bool :=
  (c =? 0x0009) || (c =? 0x000A) || (c =? 0x000B) || (c =? 0x000C) ||
  (c =? 0x000D) || (c =? 0x0020) || (c =? 0x00A0) || (c =? 0x1680) ||
  ((0x2000 <=? c) && (c <=? 0x200A)) ||
  (c =? 0x2028) || (c =? 0x2029) || (c =? 0x202F) || (c =? 0x205F) ||
  (c =? 0x3000) || (c =? 0xFEFF).

Fixpoint trim_start (s : jsstring) : jsstring :=
  match s with
  | [] => []
  | c :: s' => if is_white_space c then trim_start s' else s
  end.

Definition trim_end (s : jsstring) : jsstring :=
  rev (trim_start (rev s)).

(** [String.prototype.trim]. *)
Definition trim (s : jsstring) : jsstring := trim_end (trim_start s).

(** ** Regular expressions of the shape used by the form

    A pattern is a sequence of atoms, each with a fixed repetition count;
    [test] anchors it at both ends ([^] and [$] without the [m] flag). *)

Inductive atom : Type :=
  | Chr (c : N)                       (* a literal character *)
  | Class (ranges : list (N * N)).    (* [a-b...] *)

Definition atom_matches (a : atom) (c : N) : bool :=
  match a with
  | Chr c' => c =? c'
  | Class ranges => existsb (fun r => (fst r <=? c) && (c <=? snd r)) ranges
  end.

(** Consume exactly [n] characters matching [a]. *)
Fixpoint match_repeat (a : atom) (n : nat) (s : jsstring) : option jsstring :=
  match n with
  | O => Some s
  | S n' =>
      match s with
      | c :: s' => if atom_matches a c then match_repeat a n' s' else None
      | [] => None
      end
  end.

Fixpoint match_seq (p : list (atom * nat)) (s : jsstring) : option jsstring :=
  match p with
  | [] => Some s
  | (a, n) :: p' =>
      match match_repeat a n s with
      | Some rest => match_seq p' rest
      | None => None
      end
  end.

(** [/^p$/.test(s)] *)
Definition regex_test (p : list (atom * nat)) (s : jsstring) : bool :=
  match match_seq p s with
  | Some [] => true
  | _ => false
  end.

Definition chr (a : ascii) : N := N_of_ascii a.

(** [/^#[0-9A-Fa-f]{6}$/] *)
Definition hex_color_pattern : list (atom * nat) :=
  [ (Chr (chr "#"), 1%nat);
    (Class [ (chr "0", chr "9"); (chr "A", chr "F"); (chr "a", chr "f") ], 6%nat) ].

(** ** Values and objects *)

(** The values a form field or a submitted entry holds. *)
Inductive value : Type :=
  | VUndefined
  | VNull
  | VBool (b : bool)
  | VStr (s : jsstring).

#[global] Instance value_eq_dec : EqDecision value.
Proof. solve_decision. Defined.

(** [ToBoolean] *)
Definition truthy (v : value) : bool :=
  match v with
  | VUndefined | VNull => false
  | VBool b => b
  | VStr s => negb (bool_decide (s = []))
  end.

(** [v === w] *)
Definition strict_eq (v w : value) : bool := bool_decide (v = w).

(** A plain object: own enumerable string-keyed properties. *)
Abbreviation object := (gmap jsstring value).

(** [o.k]: a missing property reads as [undefined]. *)
Definition get (o : object) (k : jsstring) : value := default VUndefined (o !! k).

(** [Object.entries] and [Object.fromEntries]. *)
Definition entries (o : object) : list (jsstring * value) := map_to_list o.
Definition fromEntries (l : list (jsstring * value)) : object := list_to_map l.

(** The form engine's model, of which the callbacks only call [getValue]. *)
Record FormModel : Type := { getValue : jsstring -> value }.

(** The argument of the callbacks: [{form?: any; model?: any}]. A [form]
    that is [undefined] (or any other falsy value) is [None]. *)
Record Context : Type := { form : option object; model : option FormModel }.

(** The object given to the API client. *)
Record Payload : Type := { options : object }.

(** Result of a callback that may throw. *)
Inductive completion (A : Type) : Type :=
  | Normal (a : A)
  | ThrowTypeError.
Arguments Normal {A} a.
Arguments ThrowTypeError {A}.

(** [v.trim()]: only strings have the method among the values modelled;
    [undefined.trim] and [null.trim] throw on the property access,
    [true.trim()] and [false.trim()] on the call. *)
Definition call_trim (v : value) : completion jsstring :=
  match v with
  | VStr s => Normal (trim s)
  | _ => ThrowTypeError
  end.

#[global] Instance completion_ret : MRet completion := fun _ a => Normal a.
#[global] Instance completion_bind : MBind completion := fun _ _ k c =>
  match c with
  | Normal a => k a
  | ThrowTypeError => ThrowTypeError
  end.

(** Property names and literals of the form. *)
Definition customTheme_key : jsstring := lit "customTheme".
Definition customThemeColor_key : jsstring := lit "customThemeColor".
Definition str_custom : value := VStr (lit "custom").
Definition str_default : value := VStr (lit "default").

Definition msg_missing : jsstring :=
  lit "Please provide a hex color when selecting custom theme".
Definition msg_invalid : jsstring :=
  lit "Please enter a valid hex color (e.g., #ff5722)".

(** [o?.k] *)
Definition opt_get (o : option object) (k : jsstring) : value :=
  match o with
  | Some f => get f k
  | None => VUndefined
  end.

(** [context?.form || {}] *)
Definition formData_of (context : option Context) : object :=
  default ∅ (context ≫= form).

(** An error of [validate]: the pair [[field, message]]. *)
Abbreviation field_error := (jsstring * jsstring)%type.

(** ** Select options and their rendering *)







(** An entry [{value, label}] of a select field's [options]. *)
Record SelectEntry : Type := { entry_value : value; entry_label : jsstring }.

(** ** static/app/data/forms/accountPreferences.tsx *)

Module AccountPreferences.

Definition transformOptions (data : object) : Payload := {| options := data |}.

Definition transformCustomTheme (data : object) (context : option Context)
  : Payload :=
  let formData := formData_of context in
  let customTheme := get formData customTheme_key in
  let customThemeColor := get formData customThemeColor_key in
  let transformedData :=
    fromEntries (filter (λ e, e.1 ≠ customThemeColor_key) (entries data)) in
  if strict_eq customTheme str_custom && truthy customThemeColor then
    {| options := <[customTheme_key := customThemeColor]> transformedData |}
  else if truthy customTheme && negb (strict_eq customTheme str_default) then
    {| options := <[customTheme_key := customTheme]> transformedData |}
  else if strict_eq customTheme str_default then
    {| options := <[customTheme_key := str_default]> transformedData |}
  else
    {| options := transformedData |}.

Definition visible (props : Context) : bool :=
  (* model?.getValue('customTheme') === 'custom' *)
  strict_eq
    (match model props with
     | Some m => getValue m customTheme_key
     | None => VUndefined
     end)
    str_custom.

Definition validate (props : Context) : completion (list field_error) :=
  let customTheme := opt_get (form props) customTheme_key in
  let customThemeColor := opt_get (form props) customThemeColor_key in
  if strict_eq customTheme str_custom then
    (* !customThemeColor || customThemeColor.trim() === '' *)
    empty ← (if negb (truthy customThemeColor) then mret true
             else t ← call_trim customThemeColor; mret (bool_decide (t = [])));
    if empty : bool then
      mret [(customThemeColor_key, msg_missing)]
    else
      t ← call_trim customThemeColor;
      if negb (regex_test hex_color_pattern t) then
        mret [(customThemeColor_key, msg_invalid)]
      else mret []
  else mret [].


(** The [options] of the [customTheme] select; [t] is the localisation
    function of the host application. *)
Definition customTheme_options (t : jsstring → jsstring) : list SelectEntry :=
  [ {| entry_value := VStr (lit "default"); entry_label := t (lit "Default") |};
    {| entry_value := VStr (lit "#809848"); entry_label := t (lit "Squashed Bug") |};
    {| entry_value := VStr (lit "#f7b538"); entry_label := t (lit "Rubber Ducky") |};
    {| entry_value := VStr (lit "#FFDDE2"); entry_label := t (lit "Cherry Blossom") |};
    {| entry_value := VStr (lit "#6A7FDB"); entry_label := t (lit "Tech Bro") |};
    {| entry_value := VStr (lit "custom"); entry_label := t (lit "Custom") |} ].

End AccountPreferences.

(** ** unnamed/part_000 *)

Module Part000.

Definition transformOptions (data : object) : Payload := {| options := data |}.

Definition transformCustomTheme (data : object) (context : option Context)
  : Payload :=
  let formData := formData_of context in
  let customTheme := get formData customTheme_key in
  let customThemeColor := get formData customThemeColor_key in
  let transformedData :=
    fromEntries (filter (λ e, e.1 ≠ customThemeColor_key) (entries data)) in
  if strict_eq customTheme str_custom && truthy customThemeColor then
    {| options := <[customTheme_key := customThemeColor]> transformedData |}
  else if truthy customTheme then
    {| options := <[customTheme_key := customTheme]> transformedData |}
  else
    {| options := transformedData |}.

Definition visible (props : Context) : bool :=
  strict_eq
    (match model props with
     | Some m => getValue m customTheme_key
     | None => VUndefined
     end)
    str_custom.

Definition validate (props : Context) : completion (list field_error) :=
  let customTheme := opt_get (form props) customTheme_key in
  let customThemeColor := opt_get (form props) customThemeColor_key in
  (* customTheme === 'custom' &&
     (!customThemeColor || customThemeColor.trim() === '') *)
  empty ← (if strict_eq customTheme str_custom then
             if negb (truthy customThemeColor) then mret true
             else t ← call_trim customThemeColor; mret (bool_decide (t = []))
           else mret false);
  if empty : bool then
    mret [(customThemeColor_key, msg_missing)]
  else
    (* customTheme === 'custom' && customThemeColor &&
       !/^#[0-9A-Fa-f]{6}$/.test(customThemeColor.trim()) *)
    invalid ← (if strict_eq customTheme str_custom then
                 if truthy customThemeColor then
                   t ← call_trim customThemeColor;
                   mret (negb (regex_test hex_color_pattern t))
                 else mret false
               else mret false);
    if invalid : bool then
      mret [(customThemeColor_key, msg_invalid)]
    else mret [].

(** The [options] of the [customTheme] select. *)
Definition customTheme_options (t : jsstring → jsstring) : list SelectEntry :=
  [ {| entry_value := VStr (lit "default"); entry_label := t (lit "Default") |};
    {| entry_value := VStr (lit "custom"); entry_label := t (lit "Custom") |} ].

End Part000.

(** ** Sample inputs *)

Arguments lit s%_string.

Definition str (s : string) : value := VStr (lit s).
Arguments str s%_string.

Definition with_form (f : object) : Context := {| form := Some f; model := None |}.

Definition custom_form (color : value) : object :=
  {[customTheme_key := str "custom"; customThemeColor_key := color]}.

(** The form state [f] with [color] as its [customThemeColor]. *)
Definition with_color (f : object) (color : value) : Context :=
  with_form (<[customThemeColor_key := color]> f).

(** ** Reference forms used in the proofs *)

(** A hexadecimal digit, as the class [[0-9A-Fa-f]] reads. *)
Definition is_hex_digit (c : N) : bool :=
  ((chr "0" <=? c) && (c <=? chr "9")) ||
  ((chr "A" <=? c) && (c <=? chr "F")) ||
  ((chr "a" <=? c) && (c <=? chr "f")).

(** What both revisions of [transformCustomTheme] are shown to compute as
    [options]: the changed fields without [customThemeColor], with
    [customTheme] written by cases on the form state. *)
Definition transformed (data : object) (context : option Context) : object :=
  let customTheme := get (formData_of context) customTheme_key in
  let customThemeColor := get (formData_of context) customThemeColor_key in
  if strict_eq customTheme str_custom && truthy customThemeColor then
    <[customTheme_key := customThemeColor]> (delete customThemeColor_key data)
  else if truthy customTheme then
    <[customTheme_key := customTheme]> (delete customThemeColor_key data)
  else delete customThemeColor_key data.

(** * Properties *)

(** ** Strings *)

Lemma trim_start_all_white s :
  forallb is_white_space s = true → trim_start s = [].
Proof.
  induction s as [|c s IH]; simpl; [done|].
  intros [Hc Hs]%andb_prop. rewrite Hc. auto.
Qed.

Lemma trim_start_nil_inv s :
  trim_start s = [] → forallb is_white_space s = true.
Proof.
  induction s as [|c s IH]; simpl; [done|].
  destruct (is_white_space c); [auto | discriminate].
Qed.

Lemma forallb_white_rev s :
  forallb is_white_space (rev s) = forallb is_white_space s.
Proof.
  induction s as [|c s IH]; simpl; [done|].
  rewrite forallb_app, IH. simpl. rewrite andb_true_r. apply andb_comm.
Qed.

(** A string trims to the empty string exactly when it is made of white
    space only (the empty string included). *)
Lemma trim_nil_iff s : trim s = [] ↔ forallb is_white_space s = true.
Proof.
  unfold trim, trim_end. split.
  - intros H. apply (f_equal (@rev N)) in H. rewrite rev_involutive in H.
    simpl in H. apply trim_start_nil_inv in H.
    rewrite forallb_white_rev in H.
    destruct (trim_start s) as [|c t] eqn:E; [by apply trim_start_nil_inv|].
    exfalso. simpl in H. apply andb_prop in H as [Hc _].
    clear -E Hc. induction s as [|d s IH]; simpl in E; [done|].
    destruct (is_white_space d) eqn:Ed; [auto|]. congruence.
  - intros H. by rewrite (trim_start_all_white _ H).
Qed.

(** ** The hex colour pattern *)

(** X15. The pattern accepts exactly [#] followed by six hexadecimal digits. *)
Lemma hex_color_pattern_spec s :
  regex_test hex_color_pattern s = true ↔
  ∃ d1 d2 d3 d4 d5 d6,
    s = [chr "#"; d1; d2; d3; d4; d5; d6] ∧
    forallb is_hex_digit [d1; d2; d3; d4; d5; d6] = true.
Proof.
  assert (Hd : ∀ c,
    atom_matches (Class [(chr "0", chr "9"); (chr "A", chr "F"); (chr "a", chr "f")]) c
    = is_hex_digit c).
  { intros c. unfold is_hex_digit. simpl. by rewrite orb_false_r, orb_assoc. }
  split.
  - unfold regex_test, hex_color_pattern. cbn [match_seq match_repeat].
    destruct s as [|c0 s]; [done|].
    destruct (atom_matches (Chr (chr "#")) c0) eqn:E0; [|done].
    apply N.eqb_eq in E0 as ->.
    do 6 (destruct s as [|? s]; [done|]; rewrite Hd;
          match goal with |- context [is_hex_digit ?x] =>
            destruct (is_hex_digit x) eqn:? end; [|done]).
    destruct s; [|done]. intros _.
    do 6 eexists. split; [done|]. simpl.
    repeat match goal with H : is_hex_digit _ = true |- _ => rewrite H; clear H end.
    done.
  - intros (d1&d2&d3&d4&d5&d6&->&H). simpl in H.
    repeat (apply andb_prop in H as [? H]).
    unfold regex_test, hex_color_pattern. cbn [match_seq match_repeat].
    replace (atom_matches (Chr (chr "#")) (chr "#")) with true by done.
    rewrite !Hd.
    repeat match goal with H : is_hex_digit _ = true |- _ => rewrite H; clear H end.
    done.
Qed.

(** ** Objects *)

(** Filtering the entries on the key and rebuilding the object removes
    that key and nothing else. *)
Lemma fromEntries_filter_key (data : object) (k0 : jsstring) :
  fromEntries (filter (λ e, e.1 ≠ k0) (entries data)) = delete k0 data.
Proof.
  unfold fromEntries, entries.
  rewrite <- (map_filter_alt (λ e : jsstring * value, e.1 ≠ k0)).
  apply map_eq. intros k. rewrite map_lookup_filter, lookup_delete.
  destruct (data !! k) as [v|]; simpl.
  - destruct (decide (k0 = k)) as [->|Hne].
    + by rewrite option_guard_False by (simpl; auto).
    + by rewrite option_guard_True by (simpl; auto).
  - by destruct (decide (k0 = k)).
Qed.

Lemma keys_distinct : customTheme_key ≠ customThemeColor_key.
Proof. discriminate. Qed.

Lemma truthy_str s : truthy (VStr s) = true ↔ s ≠ [].
Proof.
  simpl. destruct (decide (s = [])) as [->|Hne].
  - by rewrite bool_decide_eq_true_2.
  - by rewrite bool_decide_eq_false_2.
Qed.

Lemma strict_eq_true v w : strict_eq v w = true ↔ v = w.
Proof. apply bool_decide_eq_true. Qed.

Lemma strict_eq_false v w : strict_eq v w = false ↔ v ≠ w.
Proof. apply bool_decide_eq_false. Qed.

(** ** transformCustomTheme *)

Lemma transformCustomTheme_current data context :
  AccountPreferences.transformCustomTheme data context
  = {| options := transformed data context |}.
Proof.
  unfold AccountPreferences.transformCustomTheme, transformed.
  rewrite fromEntries_filter_key.
  destruct (strict_eq _ str_custom && truthy _); [done|].
  destruct (strict_eq (get (formData_of context) customTheme_key) str_default)
    eqn:Hd.
  - apply strict_eq_true in Hd. rewrite Hd. done.
  - by destruct (truthy _).
Qed.

Lemma transformCustomTheme_part000 data context :
  Part000.transformCustomTheme data context
  = {| options := transformed data context |}.
Proof.
  unfold Part000.transformCustomTheme, transformed.
  rewrite fromEntries_filter_key.
  by repeat destruct (_ : bool).
Qed.

Section Transform.
Variables (data : object) (context : option Context).

Let customTheme := get (formData_of context) customTheme_key.
Let customThemeColor := get (formData_of context) customThemeColor_key.

Lemma transformed_custom_color s :
  customTheme = str_custom → customThemeColor = VStr s → s ≠ [] →
  transformed data context !! customTheme_key = Some (VStr s).
Proof.
  subst customTheme customThemeColor. intros Ht Hc Hs.
  unfold transformed. rewrite Ht, Hc.
  replace (strict_eq str_custom str_custom) with true by done.
  apply truthy_str in Hs. rewrite Hs. simpl. apply lookup_insert_eq.
Qed.

Lemma transformed_pass_through :
  truthy customTheme = true →
  ¬ (customTheme = str_custom ∧ truthy customThemeColor = true) →
  transformed data context !! customTheme_key = Some customTheme.
Proof.
  subst customTheme customThemeColor. intros Ht Hn. unfold transformed.
  destruct (strict_eq _ str_custom) eqn:Hc; simpl.
  - apply strict_eq_true in Hc.
    destruct (truthy (get _ customThemeColor_key)) eqn:Hcol.
    + destruct Hn. auto.
    + rewrite Ht. apply lookup_insert_eq.
  - rewrite Ht. apply lookup_insert_eq.
Qed.

Lemma transformed_unset :
  truthy customTheme = false →
  transformed data context !! customTheme_key = data !! customTheme_key.
Proof.
  subst customTheme. intros Ht. unfold transformed.
  destruct (strict_eq _ str_custom) eqn:Hc; simpl.
  - apply strict_eq_true in Hc. rewrite Hc in Ht. discriminate.
  - rewrite Ht. apply lookup_delete_ne. by intros ?%eq_sym%keys_distinct.
Qed.

Lemma transformed_no_color_key :
  transformed data context !! customThemeColor_key = None.
Proof.
  unfold transformed.
  repeat destruct (_ : bool);
    rewrite ?lookup_insert_ne by apply keys_distinct;
    apply lookup_delete_eq.
Qed.

Lemma transformed_other_keys k :
  k ≠ customTheme_key → k ≠ customThemeColor_key →
  transformed data context !! k = data !! k.
Proof.
  intros H1 H2. unfold transformed.
  repeat destruct (_ : bool);
    rewrite ?lookup_insert_ne by done; by apply lookup_delete_ne.
Qed.

End Transform.

(** C1. When the form state has [customTheme === 'custom'] and a non-empty
    string as [customThemeColor], the payload's [options.customTheme] is that
    colour string, in both revisions of [transformCustomTheme]. *)
Theorem transformCustomTheme_custom_color data context s :
  get (formData_of context) customTheme_key = str_custom →
  get (formData_of context) customThemeColor_key = VStr s →
  s ≠ [] →
  options (AccountPreferences.transformCustomTheme data context)
    !! customTheme_key = Some (VStr s)
  ∧ options (Part000.transformCustomTheme data context)
    !! customTheme_key = Some (VStr s).
Proof.
  intros Ht Hc Hs.
  rewrite transformCustomTheme_current, transformCustomTheme_part000. simpl.
  split; by apply transformed_custom_color.
Qed.

Lemma transformCustomTheme_custom_color_witness :
  options (AccountPreferences.transformCustomTheme
             {[customThemeColor_key := str "#AABBCC"]}
             (Some (with_form (custom_form (str "#AABBCC")))))
    !! customTheme_key = Some (str "#AABBCC")
  ∧ options (Part000.transformCustomTheme
             {[customThemeColor_key := str "#AABBCC"]}
             (Some (with_form (custom_form (str "#AABBCC")))))
    !! customTheme_key = Some (str "#AABBCC").
Proof.
  apply (transformCustomTheme_custom_color
           {[customThemeColor_key := str "#AABBCC"]}
           (Some (with_form (custom_form (str "#AABBCC"))))
           (lit "#AABBCC")).
  - vm_compute. reflexivity.
  - vm_compute. reflexivity.
  - discriminate.
Defined.

(** C2, as stated, fails: with [customTheme] absent from the form state no
    branch of the transform writes [customTheme], so the payload of a
    [customThemeColor] change has no [customTheme] at all. *)
Lemma transformCustomTheme_unset_not_default :
  formData_of (Some (with_form {[customThemeColor_key := str "#AABBCC"]}))
    !! customTheme_key = None
  ∧ options (AccountPreferences.transformCustomTheme
               {[customThemeColor_key := str "#AABBCC"]}
               (Some (with_form {[customThemeColor_key := str "#AABBCC"]})))
      !! customTheme_key ≠ Some str_default
  ∧ options (Part000.transformCustomTheme
               {[customThemeColor_key := str "#AABBCC"]}
               (Some (with_form {[customThemeColor_key := str "#AABBCC"]})))
      !! customTheme_key ≠ Some str_default.
Proof. vm_compute. repeat split; discriminate. Qed.

(** C2, amended. When the form state has [customTheme === 'default'] the
    payload's [options.customTheme] is ['default']; when [customTheme] is
    unset (absent, or any other falsy value) the transform does not write
    it, and [options.customTheme] is whatever the changed-fields mapping
    holds under that key, absent when it is absent there. Both revisions. *)
Theorem transformCustomTheme_default_or_unset data context :
  get (formData_of context) customTheme_key = str_default
  ∨ truthy (get (formData_of context) customTheme_key) = false →
  options (AccountPreferences.transformCustomTheme data context)
    !! customTheme_key
  = (if decide (get (formData_of context) customTheme_key = str_default)
     then Some str_default else data !! customTheme_key)
  ∧ options (Part000.transformCustomTheme data context) !! customTheme_key
  = (if decide (get (formData_of context) customTheme_key = str_default)
     then Some str_default else data !! customTheme_key).
Proof.
  intros H.
  rewrite transformCustomTheme_current, transformCustomTheme_part000. simpl.
  case_decide as Hd.
  - split;
      (rewrite transformed_pass_through; rewrite Hd;
       [done | done | by intros [? _]]).
  - destruct H as [H|H]; [done|].
    split; by apply transformed_unset.
Qed.

Lemma transformCustomTheme_default_or_unset_witness :
  (options (AccountPreferences.transformCustomTheme
              {[customTheme_key := str "default"]}
              (Some (with_form {[customTheme_key := str "default"]})))
     !! customTheme_key = Some str_default
   ∧ options (Part000.transformCustomTheme
              {[customTheme_key := str "default"]}
              (Some (with_form {[customTheme_key := str "default"]})))
     !! customTheme_key = Some str_default)
  ∧ (options (AccountPreferences.transformCustomTheme
              {[customThemeColor_key := str "#AABBCC"]} None)
     !! customTheme_key = None
   ∧ options (Part000.transformCustomTheme
              {[customThemeColor_key := str "#AABBCC"]} None)
     !! customTheme_key = None).
Proof.
  split.
  - exact (transformCustomTheme_default_or_unset
             {[customTheme_key := str "default"]}
             (Some (with_form {[customTheme_key := str "default"]}))
             (or_introl eq_refl)).
  - exact (transformCustomTheme_default_or_unset
             {[customThemeColor_key := str "#AABBCC"]} None
             (or_intror eq_refl)).
Defined.

(** C3. When the form state's [customTheme] is set (truthy, which is how the
    code tests it), is not ['default'], and it is not the case that it is
    ['custom'] with a non-empty (truthy) [customThemeColor], the payload's
    [options.customTheme] is the form state's [customTheme] unchanged; this
    covers ['custom'] with an empty colour and every preset hex value. Both
    revisions. *)
Theorem transformCustomTheme_pass_through data context :
  truthy (get (formData_of context) customTheme_key) = true →
  get (formData_of context) customTheme_key ≠ str_default →
  ¬ (get (formData_of context) customTheme_key = str_custom
     ∧ truthy (get (formData_of context) customThemeColor_key) = true) →
  options (AccountPreferences.transformCustomTheme data context)
    !! customTheme_key = Some (get (formData_of context) customTheme_key)
  ∧ options (Part000.transformCustomTheme data context)
    !! customTheme_key = Some (get (formData_of context) customTheme_key).
Proof.
  intros Ht _ Hn.
  rewrite transformCustomTheme_current, transformCustomTheme_part000. simpl.
  split; by apply transformed_pass_through.
Qed.

Lemma transformCustomTheme_pass_through_witness :
  (options (AccountPreferences.transformCustomTheme
              {[customTheme_key := str "custom"]}
              (Some (with_form (custom_form (str "")))))
     !! customTheme_key = Some (str "custom")
   ∧ options (Part000.transformCustomTheme
              {[customTheme_key := str "custom"]}
              (Some (with_form (custom_form (str "")))))
     !! customTheme_key = Some (str "custom"))
  ∧ (options (AccountPreferences.transformCustomTheme
              {[customTheme_key := str "#809848"]}
              (Some (with_form {[customTheme_key := str "#809848"]})))
     !! customTheme_key = Some (str "#809848")
   ∧ options (Part000.transformCustomTheme
              {[customTheme_key := str "#809848"]}
              (Some (with_form {[customTheme_key := str "#809848"]})))
     !! customTheme_key = Some (str "#809848")).
Proof.
  split.
  - apply (transformCustomTheme_pass_through
             {[customTheme_key := str "custom"]}
             (Some (with_form (custom_form (str ""))))).
    + vm_compute. reflexivity.
    + vm_compute. discriminate.
    + vm_compute. intros [_ H]. discriminate H.
  - assert (H1 : truthy (get (formData_of
             (Some (with_form {[customTheme_key := str "#809848"]})))
             customTheme_key) = true) by (vm_compute; reflexivity).
    assert (H2 : get (formData_of
             (Some (with_form {[customTheme_key := str "#809848"]})))
             customTheme_key ≠ str_default) by (vm_compute; discriminate).
    assert (H3 : ¬ (get (formData_of
             (Some (with_form {[customTheme_key := str "#809848"]})))
             customTheme_key = str_custom
           ∧ truthy (get (formData_of
             (Some (with_form {[customTheme_key := str "#809848"]})))
             customThemeColor_key) = true))
      by (vm_compute; intros [H _]; discriminate H).
    pose proof (transformCustomTheme_pass_through
             {[customTheme_key := str "#809848"]}
             (Some (with_form {[customTheme_key := str "#809848"]}))
             H1 H2 H3) as W.
    vm_compute in W |- *. exact W.
Defined.

(** C4. The [options] returned by [transformCustomTheme] never have a
    [customThemeColor] key, and every key of the changed-fields mapping
    other than [customTheme] and [customThemeColor] is in the output with
    its value unchanged (and no other key is added). Both revisions. *)
Theorem transformCustomTheme_frame data context :
  (options (AccountPreferences.transformCustomTheme data context)
     !! customThemeColor_key = None
   ∧ ∀ k, k ≠ customTheme_key → k ≠ customThemeColor_key →
       options (AccountPreferences.transformCustomTheme data context) !! k
       = data !! k)
  ∧ (options (Part000.transformCustomTheme data context)
       !! customThemeColor_key = None
     ∧ ∀ k, k ≠ customTheme_key → k ≠ customThemeColor_key →
         options (Part000.transformCustomTheme data context) !! k
         = data !! k).
Proof.
  rewrite transformCustomTheme_current, transformCustomTheme_part000. simpl.
  repeat split;
    auto using transformed_no_color_key, transformed_other_keys.
Qed.

Lemma transformCustomTheme_frame_witness :
  options (AccountPreferences.transformCustomTheme
             {[lit "language" := str "en"; customThemeColor_key := str "#AABBCC"]}
             (Some (with_form (custom_form (str "#AABBCC")))))
    !! lit "language" = Some (str "en")
  ∧ options (Part000.transformCustomTheme
             {[lit "language" := str "en"; customThemeColor_key := str "#AABBCC"]}
             (Some (with_form (custom_form (str "#AABBCC")))))
    !! lit "language" = Some (str "en").
Proof.
  pose proof (transformCustomTheme_frame
    {[lit "language" := str "en"; customThemeColor_key := str "#AABBCC"]}
    (Some (with_form (custom_form (str "#AABBCC"))))) as [[_ H1] [_ H2]].
  split.
  - rewrite (H1 (lit "language")); [reflexivity | discriminate | discriminate].
  - rewrite (H2 (lit "language")); [reflexivity | discriminate | discriminate].
Defined.

(** C9. The three-branch [transformCustomTheme] of accountPreferences.tsx
    and the two-branch one of the other copy return equal payloads on every
    changed-fields mapping and every context. *)
Theorem transformCustomTheme_revisions_agree data context :
  AccountPreferences.transformCustomTheme data context
  = Part000.transformCustomTheme data context.
Proof.
  by rewrite transformCustomTheme_current, transformCustomTheme_part000.
Qed.

(** ** validate *)

Lemma validate_revisions_agree props :
  Part000.validate props = AccountPreferences.validate props.
Proof.
  unfold Part000.validate, AccountPreferences.validate.
  destruct (strict_eq (opt_get (form props) customTheme_key) str_custom);
    [|done].
  destruct (opt_get (form props) customThemeColor_key) as [| |[]|s];
    try done.
  cbn. destruct (bool_decide (s = [])) eqn:Es; cbn; [done|].
  destruct (bool_decide (trim s = [])); cbn; [done|].
  by destruct (regex_test hex_color_pattern (trim s)).
Qed.

Section Validate.
Variable props : Context.

Let customTheme := opt_get (form props) customTheme_key.
Let customThemeColor := opt_get (form props) customThemeColor_key.

Lemma validate_not_custom :
  customTheme ≠ str_custom → AccountPreferences.validate props = Normal [].
Proof.
  subst customTheme. intros H%strict_eq_false.
  unfold AccountPreferences.validate. by rewrite H.
Qed.

Lemma validate_falsy :
  customTheme = str_custom → truthy customThemeColor = false →
  AccountPreferences.validate props
  = Normal [(customThemeColor_key, msg_missing)].
Proof.
  subst customTheme customThemeColor. intros Ht Hc.
  unfold AccountPreferences.validate. rewrite Ht, Hc. done.
Qed.

(** With a string as colour, [validate] is decided by the trimmed value. *)
Lemma validate_string s :
  customTheme = str_custom → customThemeColor = VStr s →
  AccountPreferences.validate props
  = Normal (if bool_decide (trim s = []) then
              [(customThemeColor_key, msg_missing)]
            else if regex_test hex_color_pattern (trim s) then []
            else [(customThemeColor_key, msg_invalid)]).
Proof.
  subst customTheme customThemeColor. intros Ht Hc.
  unfold AccountPreferences.validate. rewrite Ht, Hc.
  replace (strict_eq str_custom str_custom) with true by done.
  cbn. destruct (bool_decide (s = [])) eqn:Es; cbn.
  - apply bool_decide_eq_true in Es as ->. done.
  - destruct (bool_decide (trim s = [])); cbn; [done|].
    by destruct (regex_test hex_color_pattern (trim s)).
Qed.

End Validate.

(** C5, as stated, fails: the pattern is tested on the trimmed value, so a
    valid colour surrounded by white space, which itself does not match the
    pattern, is accepted. *)
Lemma validate_padded_hex_accepted :
  lit " #AABBCC " ≠ []
  ∧ forallb is_white_space (lit " #AABBCC ") = false
  ∧ regex_test hex_color_pattern (lit " #AABBCC ") = false
  ∧ AccountPreferences.validate (with_form (custom_form (str " #AABBCC ")))
    ≠ Normal [(customThemeColor_key, msg_invalid)]
  ∧ Part000.validate (with_form (custom_form (str " #AABBCC ")))
    ≠ Normal [(customThemeColor_key, msg_invalid)].
Proof. vm_compute. repeat split; discriminate. Qed.

(** C5, amended. When the form state has [customTheme === 'custom'] and
    [customThemeColor] is a string whose trimmed value is not empty and does
    not match [#] followed by exactly six hexadecimal digits, [validate]
    returns exactly the one error
    [('customThemeColor', 'Please enter a valid hex color (e.g., #ff5722)')];
    and for [customThemeColor = '#AABBCC'] it returns no errors. Both
    revisions. *)
Theorem validate_invalid_hex props s :
  opt_get (form props) customTheme_key = str_custom →
  opt_get (form props) customThemeColor_key = VStr s →
  trim s ≠ [] →
  regex_test hex_color_pattern (trim s) = false →
  (AccountPreferences.validate props
   = Normal [(customThemeColor_key, msg_invalid)]
   ∧ Part000.validate props = Normal [(customThemeColor_key, msg_invalid)])
  ∧ (AccountPreferences.validate (with_form (custom_form (str "#AABBCC")))
     = Normal []
     ∧ Part000.validate (with_form (custom_form (str "#AABBCC"))) = Normal []).
Proof.
  intros Ht Hc Hs Hre. split; [|by vm_compute].
  rewrite validate_revisions_agree, (validate_string props s Ht Hc).
  by rewrite bool_decide_eq_false_2, Hre.
Qed.

Lemma validate_invalid_hex_witness :
  AccountPreferences.validate (with_form (custom_form (str "zz00zz")))
  = Normal [(customThemeColor_key, msg_invalid)]
  ∧ Part000.validate (with_form (custom_form (str "zz00zz")))
  = Normal [(customThemeColor_key, msg_invalid)].
Proof.
  apply (validate_invalid_hex (with_form (custom_form (str "zz00zz")))
           (lit "zz00zz")).
  - vm_compute. reflexivity.
  - vm_compute. reflexivity.
  - vm_compute. discriminate.
  - vm_compute. reflexivity.
Defined.

(** C6. When the form state has [customTheme === 'custom'] and
    [customThemeColor] is absent (or any other falsy value), empty, or made
    of white space only, [validate] returns exactly the one error
    [('customThemeColor',
      'Please provide a hex color when selecting custom theme')]. Both
    revisions. *)
Theorem validate_missing_color props :
  opt_get (form props) customTheme_key = str_custom →
  truthy (opt_get (form props) customThemeColor_key) = false
  ∨ (∃ s, opt_get (form props) customThemeColor_key = VStr s
          ∧ forallb is_white_space s = true) →
  AccountPreferences.validate props
  = Normal [(customThemeColor_key, msg_missing)]
  ∧ Part000.validate props = Normal [(customThemeColor_key, msg_missing)].
Proof.
  intros Ht Hc. rewrite validate_revisions_agree.
  destruct Hc as [Hc|(s & Hc & Hs)].
  - by rewrite (validate_falsy props Ht Hc).
  - rewrite (validate_string props s Ht Hc).
    apply trim_nil_iff in Hs. by rewrite bool_decide_eq_true_2.
Qed.

Lemma validate_missing_color_witness :
  (AccountPreferences.validate (with_form {[customTheme_key := str "custom"]})
   = Normal [(customThemeColor_key, msg_missing)]
   ∧ Part000.validate (with_form {[customTheme_key := str "custom"]})
   = Normal [(customThemeColor_key, msg_missing)])
  ∧ (AccountPreferences.validate (with_form (custom_form (str "   ")))
     = Normal [(customThemeColor_key, msg_missing)]
     ∧ Part000.validate (with_form (custom_form (str "   ")))
     = Normal [(customThemeColor_key, msg_missing)]).
Proof.
  split.
  - apply (validate_missing_color
             (with_form {[customTheme_key := str "custom"]})).
    + vm_compute. reflexivity.
    + left. vm_compute. reflexivity.
  - apply (validate_missing_color (with_form (custom_form (str "   ")))).
    + vm_compute. reflexivity.
    + right. exists (lit "   "). split; vm_compute; reflexivity.
Defined.

(** C7. When the form state's [customTheme] is not ['custom'] (unset
    included), [validate] returns the empty error sequence whatever
    [customThemeColor] is. Both revisions. *)
Theorem validate_not_custom_ok props :
  opt_get (form props) customTheme_key ≠ str_custom →
  AccountPreferences.validate props = Normal []
  ∧ Part000.validate props = Normal [].
Proof.
  intros H. rewrite validate_revisions_agree.
  by rewrite (validate_not_custom props H).
Qed.

Lemma validate_not_custom_ok_witness :
  AccountPreferences.validate
    (with_form {[customTheme_key := str "#f7b538";
                 customThemeColor_key := VBool true]})
  = Normal []
  ∧ Part000.validate
    (with_form {[customTheme_key := str "#f7b538";
                 customThemeColor_key := VBool true]})
  = Normal [].
Proof.
  apply (validate_not_custom_ok
           (with_form {[customTheme_key := str "#f7b538";
                        customThemeColor_key := VBool true]})).
  vm_compute. discriminate.
Defined.

(** ** visible *)

(** C8. The [visible] predicate of the [customThemeColor] field is true
    exactly when the model's current value of [customTheme] is the string
    ['custom']; it is false without a model and when [customTheme] is
    unset. Both revisions. *)
Theorem visible_iff_custom props :
  (AccountPreferences.visible props = true
   ↔ ∃ m, model props = Some m ∧ getValue m customTheme_key = str_custom)
  ∧ (Part000.visible props = true
     ↔ ∃ m, model props = Some m ∧ getValue m customTheme_key = str_custom).
Proof.
  unfold AccountPreferences.visible, Part000.visible.
  rewrite strict_eq_true.
  destruct (model props) as [m|]; split; split;
    try (intros H; by exists m);
    try (by intros (m' & [= <-] & H));
    try done; by intros (? & ? & ?).
Qed.

(** ** transform against validate *)

(** C10. The transform neither validates nor trims: with
    [customTheme === 'custom'] and any non-empty string as
    [customThemeColor], [options.customTheme] is that string as it is. So
    [' '] and ['zz00zz'], both rejected by [validate], and [' #AABBCC '],
    accepted by [validate] after trimming, are sent unchanged. Both
    revisions. *)
Theorem transformCustomTheme_sends_raw_color data context s :
  get (formData_of context) customTheme_key = str_custom →
  get (formData_of context) customThemeColor_key = VStr s →
  s ≠ [] →
  (options (AccountPreferences.transformCustomTheme data context)
     !! customTheme_key = Some (VStr s)
   ∧ options (Part000.transformCustomTheme data context)
     !! customTheme_key = Some (VStr s))
  ∧ (∀ raw errors,
       (raw, errors) ∈ [ (lit " ", [(customThemeColor_key, msg_missing)]);
                         (lit "zz00zz", [(customThemeColor_key, msg_invalid)]);
                         (lit " #AABBCC ", []) ] →
       (AccountPreferences.validate (with_form (custom_form (VStr raw)))
        = Normal errors
        ∧ Part000.validate (with_form (custom_form (VStr raw)))
          = Normal errors)
       ∧ (options (AccountPreferences.transformCustomTheme data
                     (Some (with_form (custom_form (VStr raw)))))
            !! customTheme_key = Some (VStr raw)
          ∧ options (Part000.transformCustomTheme data
                       (Some (with_form (custom_form (VStr raw)))))
            !! customTheme_key = Some (VStr raw))).
Proof.
  intros Ht Hc Hs. split.
  - rewrite transformCustomTheme_current, transformCustomTheme_part000. simpl.
    split; by apply transformed_custom_color.
  - intros raw errors Hin.
    rewrite !transformCustomTheme_current, !transformCustomTheme_part000.
    simpl.
    repeat (apply elem_of_cons in Hin as [[= -> ->]|Hin]);
      [| | |by apply elem_of_nil in Hin];
      (split; [by vm_compute|]);
      split; by apply transformed_custom_color.
Qed.

Lemma transformCustomTheme_sends_raw_color_witness :
  options (AccountPreferences.transformCustomTheme
             {[customThemeColor_key := str " #AABBCC "]}
             (Some (with_form (custom_form (str " #AABBCC ")))))
    !! customTheme_key = Some (str " #AABBCC ")
  ∧ options (Part000.transformCustomTheme
             {[customThemeColor_key := str " #AABBCC "]}
             (Some (with_form (custom_form (str " #AABBCC ")))))
    !! customTheme_key = Some (str " #AABBCC ").
Proof.
  apply (transformCustomTheme_sends_raw_color
           {[customThemeColor_key := str " #AABBCC "]}
           (Some (with_form (custom_form (str " #AABBCC "))))
           (lit " #AABBCC ")).
  - vm_compute. reflexivity.
  - vm_compute. reflexivity.
  - discriminate.
Defined.

(** * Further properties of the form's callbacks *)

(** ** The payload as a whole *)

Lemma formData_of_props props k :
  get (formData_of (Some props)) k = opt_get (form props) k.
Proof. unfold formData_of, opt_get. simpl. by destruct (form props). Qed.

Lemma transformed_idem data context :
  transformed (transformed data context) context = transformed data context.
Proof.
  assert (Hk : customThemeColor_key ≠ customTheme_key) by discriminate.
  unfold transformed.
  repeat destruct (_ : bool);
    rewrite ?(delete_insert_ne _ _ _ _ Hk), ?delete_delete_eq,
      ?insert_insert_eq; done.
Qed.

(** X1. Applying [transformCustomTheme] to the options it produced, under the
    same form state, changes nothing. *)
Theorem transformCustomTheme_idempotent data context :
  AccountPreferences.transformCustomTheme
    (options (AccountPreferences.transformCustomTheme data context)) context
  = AccountPreferences.transformCustomTheme data context
  ∧ Part000.transformCustomTheme
      (options (Part000.transformCustomTheme data context)) context
    = Part000.transformCustomTheme data context.
Proof.
  rewrite !transformCustomTheme_current, !transformCustomTheme_part000. simpl.
  by rewrite transformed_idem.
Qed.

(** X2. When the changed fields carry no [customThemeColor] and the form state
    either has no [customTheme] or has the one the changed fields carry
    (not ['custom'] with a colour), [transformCustomTheme] gives the payload
    [transformOptions] gives. *)
Theorem transformCustomTheme_as_transformOptions data context :
  data !! customThemeColor_key = None →
  truthy (get (formData_of context) customTheme_key) = false
  ∨ (data !! customTheme_key = Some (get (formData_of context) customTheme_key)
     ∧ ¬ (get (formData_of context) customTheme_key = str_custom
          ∧ truthy (get (formData_of context) customThemeColor_key) = true)) →
  AccountPreferences.transformCustomTheme data context
  = AccountPreferences.transformOptions data
  ∧ Part000.transformCustomTheme data context = Part000.transformOptions data.
Proof.
  intros Hc H.
  rewrite transformCustomTheme_current, transformCustomTheme_part000.
  unfold AccountPreferences.transformOptions, Part000.transformOptions.
  assert (transformed data context = data) as ->; [|done].
  unfold transformed. rewrite (delete_id _ _ Hc).
  set (ct := get (formData_of context) customTheme_key) in *.
  set (cc := get (formData_of context) customThemeColor_key) in *.
  destruct (strict_eq ct str_custom) eqn:E; simpl.
  - apply strict_eq_true in E.
    destruct H as [H|[Hd Hn]]; [rewrite E in H; discriminate|].
    destruct (truthy cc) eqn:Ec; [destruct Hn; auto|].
    destruct (truthy ct); [by apply insert_id | done].
  - destruct H as [H|[Hd Hn]]; [by rewrite H|].
    destruct (truthy ct); [by apply insert_id | done].
Qed.

Lemma transformCustomTheme_as_transformOptions_witness :
  AccountPreferences.transformCustomTheme
    {[customTheme_key := str "#6A7FDB"]}
    (Some (with_form {[customTheme_key := str "#6A7FDB"]}))
  = AccountPreferences.transformOptions {[customTheme_key := str "#6A7FDB"]}
  ∧ Part000.transformCustomTheme
    {[customTheme_key := str "#6A7FDB"]}
    (Some (with_form {[customTheme_key := str "#6A7FDB"]}))
  = Part000.transformOptions {[customTheme_key := str "#6A7FDB"]}.
Proof.
  apply (transformCustomTheme_as_transformOptions
           {[customTheme_key := str "#6A7FDB"]}
           (Some (with_form {[customTheme_key := str "#6A7FDB"]}))).
  - vm_compute. reflexivity.
  - right. split.
    + vm_compute. reflexivity.
    + vm_compute. intros [H _]. discriminate H.
Defined.

Lemma transformed_dom data context :
  dom (transformed data context)
  = (dom data ∖ {[customThemeColor_key]})
    ∪ (if truthy (get (formData_of context) customTheme_key)
       then {[customTheme_key]} else ∅).
Proof.
  unfold transformed.
  set (ct := get (formData_of context) customTheme_key).
  set (cc := get (formData_of context) customThemeColor_key).
  assert (Hc : strict_eq ct str_custom && truthy cc = true → truthy ct = true).
  { intros [E _]%andb_prop. apply strict_eq_true in E. by rewrite E. }
  destruct (strict_eq ct str_custom && truthy cc).
  - rewrite Hc by done. rewrite dom_insert_L, dom_delete_L.
    apply (comm_L (∪)).
  - destruct (truthy ct).
    + rewrite dom_insert_L, dom_delete_L. apply (comm_L (∪)).
    + rewrite dom_delete_L. by rewrite (right_id_L ∅ (∪)).
Qed.

(** X3. The keys of the payload's [options] are those of the changed fields
    without [customThemeColor], together with [customTheme] exactly when the
    form state has a (truthy) [customTheme], whether or not the changed
    fields carry one. *)
Theorem transformCustomTheme_keys data context :
  dom (options (AccountPreferences.transformCustomTheme data context))
  = (dom data ∖ {[customThemeColor_key]})
    ∪ (if truthy (get (formData_of context) customTheme_key)
       then {[customTheme_key]} else ∅)
  ∧ dom (options (Part000.transformCustomTheme data context))
  = (dom data ∖ {[customThemeColor_key]})
    ∪ (if truthy (get (formData_of context) customTheme_key)
       then {[customTheme_key]} else ∅).
Proof.
  rewrite transformCustomTheme_current, transformCustomTheme_part000. simpl.
  split; apply transformed_dom.
Qed.

(** X4. Both fields that use [transformCustomTheme] send the same payload: with
    a (truthy) [customTheme] in the form state, a change of [customTheme]
    alone and a change of [customThemeColor] alone give equal payloads, with
    [customTheme] as their only key, whatever values the changes carry. *)
Theorem transformCustomTheme_either_field v c context :
  truthy (get (formData_of context) customTheme_key) = true →
  (AccountPreferences.transformCustomTheme {[customTheme_key := v]} context
   = AccountPreferences.transformCustomTheme {[customThemeColor_key := c]} context
   ∧ dom (options (AccountPreferences.transformCustomTheme
                     {[customThemeColor_key := c]} context))
     = {[customTheme_key]})
  ∧ (Part000.transformCustomTheme {[customTheme_key := v]} context
     = Part000.transformCustomTheme {[customThemeColor_key := c]} context
     ∧ dom (options (Part000.transformCustomTheme
                       {[customThemeColor_key := c]} context))
       = {[customTheme_key]}).
Proof.
  intros Ht.
  rewrite !transformCustomTheme_current, !transformCustomTheme_part000. simpl.
  assert (transformed {[customTheme_key := v]} context
          = transformed {[customThemeColor_key := c]} context) as ->.
  { unfold transformed. rewrite Ht, delete_singleton_eq.
    rewrite delete_singleton_ne by discriminate.
    destruct (_ && _); by rewrite insert_singleton_eq, insert_empty. }
  rewrite transformed_dom, Ht, dom_singleton_L.
  assert (({[customThemeColor_key]} ∖ {[customThemeColor_key]}
           ∪ {[customTheme_key]} : gset jsstring) = {[customTheme_key]}) as ->.
  { by rewrite difference_diag_L, (left_id_L ∅ (∪)). }
  done.
Qed.

Lemma transformCustomTheme_either_field_witness :
  AccountPreferences.transformCustomTheme
    {[customTheme_key := str "custom"]}
    (Some (with_form (custom_form (str "#ff5722"))))
  = AccountPreferences.transformCustomTheme
    {[customThemeColor_key := str "#ff5722"]}
    (Some (with_form (custom_form (str "#ff5722")))).
Proof.
  apply (transformCustomTheme_either_field (str "custom") (str "#ff5722")
           (Some (with_form (custom_form (str "#ff5722"))))).
  vm_compute. reflexivity.
Defined.

(** ** More on trimming *)

Lemma trim_start_white_prefix w s :
  forallb is_white_space w = true → trim_start (w ++ s) = trim_start s.
Proof.
  induction w as [|c w IH]; simpl; [done|].
  intros [Hc Hw]%andb_prop. rewrite Hc. auto.
Qed.

Lemma trim_start_app s t :
  trim_start s ≠ [] → trim_start (s ++ t) = trim_start s ++ t.
Proof.
  induction s as [|c s IH]; simpl; [done|].
  destruct (is_white_space c); auto.
Qed.

Lemma trim_end_white_suffix s w :
  forallb is_white_space w = true → trim_end (s ++ w) = trim_end s.
Proof.
  intros Hw. unfold trim_end. rewrite rev_app_distr.
  rewrite trim_start_white_prefix; [done|]. by rewrite forallb_white_rev.
Qed.

(** White space around a string does not change what it trims to. *)
Lemma trim_padded w1 s w2 :
  forallb is_white_space w1 = true → forallb is_white_space w2 = true →
  trim (w1 ++ s ++ w2) = trim s.
Proof.
  intros H1 H2. unfold trim. rewrite (trim_start_white_prefix _ _ H1).
  destruct (trim_start s) as [|c t] eqn:E.
  - apply trim_start_nil_inv in E.
    rewrite trim_start_all_white; [done|].
    by rewrite forallb_app, E, H2.
  - rewrite trim_start_app by (rewrite E; discriminate).
    rewrite E. by apply trim_end_white_suffix.
Qed.

Lemma hex_color_pattern_length s :
  regex_test hex_color_pattern s = true → length s = 7%nat.
Proof.
  unfold regex_test, hex_color_pattern. cbn [match_seq match_repeat].
  do 7 (destruct s as [|? s]; [done|]; destruct (atom_matches _ _); [|done]).
  by destruct s.
Qed.

(** ** More on validate *)

Section ValidateCases.
Variable props : Context.

Let customTheme := opt_get (form props) customTheme_key.
Let customThemeColor := opt_get (form props) customThemeColor_key.

Lemma validate_true_throws :
  customTheme = str_custom → customThemeColor = VBool true →
  AccountPreferences.validate props = ThrowTypeError.
Proof.
  subst customTheme customThemeColor. intros Ht Hc.
  unfold AccountPreferences.validate. by rewrite Ht, Hc.
Qed.

(** All the outcomes of [validate], by cases on the form state. *)
Lemma validate_cases :
  AccountPreferences.validate props
  = if strict_eq customTheme str_custom then
      match customThemeColor with
      | VStr s =>
          Normal (if bool_decide (trim s = []) then
                    [(customThemeColor_key, msg_missing)]
                  else if regex_test hex_color_pattern (trim s) then []
                  else [(customThemeColor_key, msg_invalid)])
      | VBool true => ThrowTypeError
      | _ => Normal [(customThemeColor_key, msg_missing)]
      end
    else Normal [].
Proof.
  destruct (strict_eq customTheme str_custom) eqn:Ht.
  - apply strict_eq_true in Ht.
    destruct customThemeColor as [| |[]|s] eqn:Hc.
    + by apply validate_falsy; [|subst customThemeColor; rewrite Hc].
    + by apply validate_falsy; [|subst customThemeColor; rewrite Hc].
    + by apply validate_true_throws.
    + by apply validate_falsy; [|subst customThemeColor; rewrite Hc].
    + by apply validate_string.
  - apply strict_eq_false in Ht. by apply validate_not_custom.
Qed.

End ValidateCases.

(** X5. [validate] reports no error exactly when [customTheme] is not
    ['custom'], or [customThemeColor] is a string that trims to [#] and six
    hexadecimal digits. *)
Theorem validate_ok_iff props :
  (AccountPreferences.validate props = Normal []
   ↔ opt_get (form props) customTheme_key ≠ str_custom
     ∨ ∃ s, opt_get (form props) customThemeColor_key = VStr s
            ∧ regex_test hex_color_pattern (trim s) = true)
  ∧ (Part000.validate props = Normal []
     ↔ opt_get (form props) customTheme_key ≠ str_custom
       ∨ ∃ s, opt_get (form props) customThemeColor_key = VStr s
              ∧ regex_test hex_color_pattern (trim s) = true).
Proof.
  rewrite validate_revisions_agree.
  assert (AccountPreferences.validate props = Normal []
          ↔ opt_get (form props) customTheme_key ≠ str_custom
            ∨ ∃ s, opt_get (form props) customThemeColor_key = VStr s
                   ∧ regex_test hex_color_pattern (trim s) = true) as Hiff;
    [|done].
  rewrite validate_cases.
  destruct (strict_eq _ str_custom) eqn:Ht.
  - apply strict_eq_true in Ht.
    destruct (opt_get (form props) customThemeColor_key) as [| |[]|s];
      try (split; [done | by intros [?|(? & ? & ?)]]).
    destruct (bool_decide (trim s = [])) eqn:Es.
    + apply bool_decide_eq_true in Es.
      split; [done|]. intros [?|(s' & [= <-] & H)]; [done|].
      rewrite Es in H. discriminate.
    + destruct (regex_test hex_color_pattern (trim s)) eqn:Hre.
      * split; [|done]. intros _. right. by exists s.
      * split; [done|]. intros [?|(s' & [= <-] & H)]; [done|]. congruence.
  - apply strict_eq_false in Ht. split; auto.
Qed.

(** X6. [validate] throws exactly when [customTheme] is ['custom'] and
    [customThemeColor] is a truthy value without a [trim] method (here the
    boolean [true]); with a string, [null] or no colour it always returns. *)
Theorem validate_throws_iff props :
  (AccountPreferences.validate props = ThrowTypeError
   ↔ opt_get (form props) customTheme_key = str_custom
     ∧ opt_get (form props) customThemeColor_key = VBool true)
  ∧ (Part000.validate props = ThrowTypeError
     ↔ opt_get (form props) customTheme_key = str_custom
       ∧ opt_get (form props) customThemeColor_key = VBool true).
Proof.
  rewrite validate_revisions_agree, validate_cases.
  assert ((if strict_eq (opt_get (form props) customTheme_key) str_custom
           then match opt_get (form props) customThemeColor_key with
                | VStr s =>
                    Normal (if bool_decide (trim s = []) then
                              [(customThemeColor_key, msg_missing)]
                            else if regex_test hex_color_pattern (trim s)
                                 then []
                                 else [(customThemeColor_key, msg_invalid)])
                | VBool true => ThrowTypeError
                | _ => Normal [(customThemeColor_key, msg_missing)]
                end
           else Normal []) = ThrowTypeError
          ↔ opt_get (form props) customTheme_key = str_custom
            ∧ opt_get (form props) customThemeColor_key = VBool true); [|done].
  destruct (strict_eq _ str_custom) eqn:Ht.
  - apply strict_eq_true in Ht.
    destruct (opt_get (form props) customThemeColor_key) as [| |[]|s];
      split; try done; by intros [_ ?].
  - apply strict_eq_false in Ht. split; [done | by intros [? _]].
Qed.

(** X7. [validate] never returns more than one error, and an error is always
    attached to the [customThemeColor] field, with one of two messages. *)
Theorem validate_outcomes props :
  (AccountPreferences.validate props = ThrowTypeError
   ∨ ∃ errors, AccountPreferences.validate props = Normal errors
       ∧ (errors = [] ∨ errors = [(customThemeColor_key, msg_missing)]
          ∨ errors = [(customThemeColor_key, msg_invalid)]))
  ∧ (Part000.validate props = ThrowTypeError
     ∨ ∃ errors, Part000.validate props = Normal errors
         ∧ (errors = [] ∨ errors = [(customThemeColor_key, msg_missing)]
            ∨ errors = [(customThemeColor_key, msg_invalid)])).
Proof.
  rewrite validate_revisions_agree, validate_cases.
  assert (∀ r : completion (list field_error),
    r = ThrowTypeError ∨ r = Normal []
    ∨ r = Normal [(customThemeColor_key, msg_missing)]
    ∨ r = Normal [(customThemeColor_key, msg_invalid)] →
    r = ThrowTypeError
    ∨ ∃ errors, r = Normal errors
        ∧ (errors = [] ∨ errors = [(customThemeColor_key, msg_missing)]
           ∨ errors = [(customThemeColor_key, msg_invalid)])) as Hr.
  { intros r [-> | [-> | [-> | ->]]];
      [by left | right; eexists; split; [done|]..]; auto. }
  split; apply Hr.
  all: destruct (strict_eq _ str_custom); [|auto].
  all: destruct (opt_get (form props) customThemeColor_key) as [| |[]|s]; auto.
  all: destruct (bool_decide (trim s = [])); auto.
  all: destruct (regex_test hex_color_pattern (trim s)); auto.
Qed.

Lemma with_color_theme f color :
  opt_get (form (with_color f color)) customTheme_key = get f customTheme_key.
Proof.
  unfold with_color, with_form, opt_get, get. simpl.
  by rewrite lookup_insert_ne by discriminate.
Qed.

Lemma with_color_color f color :
  opt_get (form (with_color f color)) customThemeColor_key = color.
Proof.
  unfold with_color, with_form, opt_get, get. simpl.
  by rewrite lookup_insert_eq.
Qed.

(** X8. [validate] looks at the colour through [trim] only: white space before
    and after the colour never changes its verdict. *)
Theorem validate_ignores_padding f w1 s w2 :
  forallb is_white_space w1 = true →
  forallb is_white_space w2 = true →
  AccountPreferences.validate (with_color f (VStr (w1 ++ s ++ w2)))
  = AccountPreferences.validate (with_color f (VStr s))
  ∧ Part000.validate (with_color f (VStr (w1 ++ s ++ w2)))
    = Part000.validate (with_color f (VStr s)).
Proof.
  intros H1 H2. rewrite !validate_revisions_agree, !validate_cases.
  rewrite !with_color_theme, !with_color_color.
  by rewrite (trim_padded _ _ _ H1 H2).
Qed.

Lemma validate_ignores_padding_witness :
  AccountPreferences.validate
    (with_color {[customTheme_key := str "custom"]} (VStr (lit "  " ++ lit "#ff572" ++ lit " ")))
  = AccountPreferences.validate
    (with_color {[customTheme_key := str "custom"]} (VStr (lit "#ff572")))
  ∧ Part000.validate
    (with_color {[customTheme_key := str "custom"]} (VStr (lit "  " ++ lit "#ff572" ++ lit " ")))
  = Part000.validate
    (with_color {[customTheme_key := str "custom"]} (VStr (lit "#ff572"))).
Proof.
  apply (validate_ignores_padding {[customTheme_key := str "custom"]}
           (lit "  ") (lit "#ff572") (lit " ")).
  - vm_compute. reflexivity.
  - vm_compute. reflexivity.
Defined.

(** X9. A colour whose trimmed length is not 7 is rejected as invalid: the
    short form [#rgb] and the form with alpha [#rrggbbaa] are not accepted. *)
Theorem validate_rejects_other_lengths props s :
  opt_get (form props) customTheme_key = str_custom →
  opt_get (form props) customThemeColor_key = VStr s →
  trim s ≠ [] →
  length (trim s) ≠ 7%nat →
  AccountPreferences.validate props
  = Normal [(customThemeColor_key, msg_invalid)]
  ∧ Part000.validate props = Normal [(customThemeColor_key, msg_invalid)].
Proof.
  intros Ht Hc Hs Hlen.
  rewrite validate_revisions_agree, (validate_string props s Ht Hc).
  rewrite bool_decide_eq_false_2 by done.
  destruct (regex_test hex_color_pattern (trim s)) eqn:Hre; [|done].
  by apply hex_color_pattern_length in Hre.
Qed.

Lemma validate_rejects_other_lengths_witness :
  AccountPreferences.validate (with_form (custom_form (str "#fff")))
  = Normal [(customThemeColor_key, msg_invalid)]
  ∧ Part000.validate (with_form (custom_form (str "#fff")))
  = Normal [(customThemeColor_key, msg_invalid)].
Proof.
  apply (validate_rejects_other_lengths
           (with_form (custom_form (str "#fff"))) (lit "#fff")).
  - vm_compute. reflexivity.
  - vm_compute. reflexivity.
  - vm_compute. discriminate.
  - vm_compute. discriminate.
Defined.

(** ** visible against validate *)

(** X10. A hidden colour field never fails validation: when the model reports
    ['custom'] whenever the form state does, and [visible] is false,
    [validate] returns no error. *)
Theorem hidden_field_is_valid props m :
  model props = Some m →
  (opt_get (form props) customTheme_key = str_custom →
   getValue m customTheme_key = str_custom) →
  (AccountPreferences.visible props = false →
   AccountPreferences.validate props = Normal [])
  ∧ (Part000.visible props = false → Part000.validate props = Normal []).
Proof.
  intros Hm Hagree. rewrite validate_revisions_agree.
  unfold AccountPreferences.visible, Part000.visible. rewrite Hm.
  assert (strict_eq (getValue m customTheme_key) str_custom = false →
          AccountPreferences.validate props = Normal []) as H; [|done].
  intros Hv%strict_eq_false. apply validate_not_custom. auto.
Qed.

Lemma hidden_field_is_valid_witness :
  AccountPreferences.validate
    {| form := Some {[customTheme_key := str "#809848";
                      customThemeColor_key := str "not a colour"]};
       model := Some {| getValue := λ _, str "#809848" |} |}
  = Normal [].
Proof.
  refine (proj1 (hidden_field_is_valid
    {| form := Some {[customTheme_key := str "#809848";
                      customThemeColor_key := str "not a colour"]};
       model := Some {| getValue := λ _, str "#809848" |} |}
    {| getValue := λ _, str "#809848" |} eq_refl _) _).
  - vm_compute. discriminate.
  - vm_compute. reflexivity.
Defined.

(** ** validate against the payload *)

Lemma validated_custom_transformed data props :
  opt_get (form props) customTheme_key = str_custom →
  AccountPreferences.validate props = Normal [] →
  ∃ s, regex_test hex_color_pattern (trim s) = true
       ∧ transformed data (Some props) !! customTheme_key = Some (VStr s).
Proof.
  intros Ht Hv. rewrite validate_cases, Ht in Hv.
  replace (strict_eq str_custom str_custom) with true in Hv by done.
  destruct (opt_get (form props) customThemeColor_key) as [| |[]|s] eqn:Hc;
    try done.
  destruct (bool_decide (trim s = [])) eqn:Es; [done|].
  destruct (regex_test hex_color_pattern (trim s)) eqn:Hre; [|done].
  exists s. split; [done|].
  apply transformed_custom_color; rewrite ?formData_of_props; try done.
  intros ->. by apply bool_decide_eq_false in Es.
Qed.

(** X11. Once [validate] has accepted a form state with [customTheme] equal to
    ['custom'], the payload never carries the literal ['custom']: its
    [customTheme] is the colour string, which trims to [#] and six
    hexadecimal digits. *)
Theorem validated_custom_sends_hex data props :
  opt_get (form props) customTheme_key = str_custom →
  AccountPreferences.validate props = Normal []
  ∨ Part000.validate props = Normal [] →
  ∃ s, regex_test hex_color_pattern (trim s) = true
       ∧ options (AccountPreferences.transformCustomTheme data (Some props))
           !! customTheme_key = Some (VStr s)
       ∧ options (Part000.transformCustomTheme data (Some props))
           !! customTheme_key = Some (VStr s).
Proof.
  intros Ht Hv. rewrite validate_revisions_agree in Hv.
  assert (AccountPreferences.validate props = Normal []) as Hv'
    by (by destruct Hv).
  destruct (validated_custom_transformed data props Ht Hv') as (s & Hre & Hs).
  exists s. by rewrite transformCustomTheme_current, transformCustomTheme_part000.
Qed.

Lemma validated_custom_sends_hex_witness :
  ∃ s, regex_test hex_color_pattern (trim s) = true
       ∧ options (AccountPreferences.transformCustomTheme
                    {[customThemeColor_key := str " #ff5722"]}
                    (Some (with_form (custom_form (str " #ff5722")))))
           !! customTheme_key = Some (VStr s)
       ∧ options (Part000.transformCustomTheme
                    {[customThemeColor_key := str " #ff5722"]}
                    (Some (with_form (custom_form (str " #ff5722")))))
           !! customTheme_key = Some (VStr s).
Proof.
  apply (validated_custom_sends_hex
           {[customThemeColor_key := str " #ff5722"]}
           (with_form (custom_form (str " #ff5722")))).
  - vm_compute. reflexivity.
  - left. vm_compute. reflexivity.
Defined.

(** ** The options of the select *)

Lemma option_values t e :
  e ∈ AccountPreferences.customTheme_options t
  ∨ e ∈ Part000.customTheme_options t →
  entry_value e = str_default ∨ entry_value e = str_custom
  ∨ ∃ s, entry_value e = VStr s ∧ s ≠ lit "custom"
         ∧ regex_test hex_color_pattern s = true
         ∧ trim s = s.
Proof.
  unfold AccountPreferences.customTheme_options, Part000.customTheme_options.
  intros [H|H];
    repeat (apply elem_of_cons in H as [->|H]); try (by apply elem_of_nil in H);
    simpl; auto;
    right; right; eexists; (split; [reflexivity|]); by vm_compute.
Qed.

(** X12. Whichever option of the [customTheme] select the form state holds, once
    [validate] has accepted the form state the payload's [customTheme] is
    ['default'] or a string that trims to [#] and six hexadecimal digits. *)
Theorem submitted_theme_default_or_hex t e data props :
  e ∈ AccountPreferences.customTheme_options t
  ∨ e ∈ Part000.customTheme_options t →
  opt_get (form props) customTheme_key = entry_value e →
  AccountPreferences.validate props = Normal []
  ∨ Part000.validate props = Normal [] →
  ∃ s, (s = lit "default" ∨ regex_test hex_color_pattern (trim s) = true)
       ∧ options (AccountPreferences.transformCustomTheme data (Some props))
           !! customTheme_key = Some (VStr s)
       ∧ options (Part000.transformCustomTheme data (Some props))
           !! customTheme_key = Some (VStr s).
Proof.
  intros He Ht Hv. rewrite validate_revisions_agree in Hv.
  assert (AccountPreferences.validate props = Normal []) as Hv'
    by (by destruct Hv).
  rewrite transformCustomTheme_current, transformCustomTheme_part000. simpl.
  destruct (option_values t e He) as [Hd|[Hc|(s & Hs & Hne & Hre & Htrim)]].
  - exists (lit "default"). split; [by left|].
    assert (transformed data (Some props) !! customTheme_key
            = Some (get (formData_of (Some props)) customTheme_key)) as ->.
    { apply transformed_pass_through; rewrite formData_of_props, Ht, Hd;
        [done | by intros [? _]]. }
    by rewrite formData_of_props, Ht, Hd.
  - rewrite Hc in Ht.
    destruct (validated_custom_transformed data props Ht Hv') as (s & ? & ?).
    exists s. auto.
  - exists s. split; [right; by rewrite Htrim|].
    assert (transformed data (Some props) !! customTheme_key
            = Some (get (formData_of (Some props)) customTheme_key)) as ->.
    { apply transformed_pass_through; rewrite formData_of_props, Ht, Hs.
      - apply truthy_str. intros ->. discriminate.
      - intros [[= ->] _]. done. }
    by rewrite formData_of_props, Ht, Hs.
Qed.

Lemma submitted_theme_default_or_hex_witness :
  ∃ s, (s = lit "default" ∨ regex_test hex_color_pattern (trim s) = true)
       ∧ options (AccountPreferences.transformCustomTheme
                    {[customTheme_key := str "#FFDDE2"]}
                    (Some (with_form {[customTheme_key := str "#FFDDE2"]})))
           !! customTheme_key = Some (VStr s)
       ∧ options (Part000.transformCustomTheme
                    {[customTheme_key := str "#FFDDE2"]}
                    (Some (with_form {[customTheme_key := str "#FFDDE2"]})))
           !! customTheme_key = Some (VStr s).
Proof.
  apply (submitted_theme_default_or_hex (λ l, l)
           {| entry_value := str "#FFDDE2";
              entry_label := lit "Cherry Blossom" |}
           {[customTheme_key := str "#FFDDE2"]}
           (with_form {[customTheme_key := str "#FFDDE2"]})).
  - left. unfold AccountPreferences.customTheme_options.
    do 3 apply list_elem_of_further. apply list_elem_of_here.
  - vm_compute. reflexivity.
  - left. vm_compute. reflexivity.
Defined.

(** ** ThemeColorOption *)





